(** * hadoop_g5k: life-cycle controllers of a Hadoop and a Cassandra cluster

    Shallow embedding of [hadoop_g5k/cluster.py] (class [HadoopCluster]) and
    [hadoop_g5k/ecosystem/cassandra.py] (class [CassandraCluster]).

    The Python methods mutate [self] and talk to the outside (ssh processes,
    execo actions, the local file system, the Grid'5000 API, the logger).
    They are embedded as computations of a state-and-exception monad over the
    object [self] and a world [W]; every external call is an operation of the
    signature [Op], answered by the world.  Two worlds are given: one that
    records the calls and answers them from a script, and one that interprets
    the file transfers over configuration files. *)

From Stdlib Require Import Ascii String ZArith Lia.
From stdpp Require Import base option list strings gmap pretty.

Local Open Scope string_scope.
Local Open Scope Z_scope.

(** ** Python strings *)

Module Py.

Definition nl : string := String "010"%char "".
Definition cr : ascii := "013"%char.
Definition lf : ascii := "010"%char.

(** The characters [str.split()] treats as separators. *)
Definition is_space (c : ascii) : bool :=
  match Ascii.nat_of_ascii c with
  | 9%nat | 10%nat | 11%nat | 12%nat | 13%nat | 32%nat => true
  | _ => false
  end.

(** [s.split()]: maximal runs of characters that are not white space. *)
Fixpoint split_go (cur : string) (s : string) : list string :=
  match s with
  | "" => if decide (cur = "") then [] else [cur]
  | String c s' =>
      if is_space c
      then (if decide (cur = "") then split_go "" s' else cur :: split_go "" s')
      else split_go (cur +:+ String c "") s'
  end.

Definition split (s : string) : list string := split_go "" s.

(** [s.splitlines()] on a byte string: lines end at "\n", "\r" or "\r\n";
    no empty last line. *)
Fixpoint splitlines_go (cur : string) (s : string) : list string :=
  match s with
  | "" => if decide (cur = "") then [] else [cur]
  | String c s' =>
      if decide (c = lf) then cur :: splitlines_go "" s'
      else if decide (c = cr) then
        match s' with
        | String c' s'' =>
            if decide (c' = lf) then cur :: splitlines_go "" s''
            else cur :: splitlines_go "" s'
        | "" => [cur]
        end
      else splitlines_go (cur +:+ String c "") s'
  end.

Definition splitlines (s : string) : list string := splitlines_go "" s.

Definition startswith (s p : string) : bool := String.prefix p s.

Fixpoint endswith (s p : string) : bool :=
  if decide (s = p) then true
  else match s with
       | "" => false
       | String _ s' => endswith s' p
       end.

(** [os.path.basename]: what follows the last slash. *)
Fixpoint basename_go (cur : string) (s : string) : string :=
  match s with
  | "" => cur
  | String c s' =>
      if decide (c = "/"%char) then basename_go "" s'
      else basename_go (cur +:+ String c "") s'
  end.

Definition basename (p : string) : string := basename_go "" p.

(** [os.path.join a b] for two components. *)
Definition join (a b : string) : string :=
  if startswith b "/" then b
  else if decide (a = "") then b
  else if endswith a "/" then a +:+ b
  else a +:+ "/" +:+ b.

(** [str(n)] for an integer. *)
Definition str (n : Z) : string := pretty n.

(** [sep.join(l)]. *)
Fixpoint sep_join (sep : string) (l : list string) : string :=
  match l with
  | [] => ""
  | [x] => x
  | x :: l' => x +:+ sep +:+ sep_join sep l'
  end.

(** [str(l)] for a list of strings without quotes or escapes in them. *)
Definition str_list (l : list string) : string :=
  "[" +:+ sep_join ", " ((λ s, "'" +:+ s +:+ "'") <$> l) +:+ "]".

(** [l.remove(x)]: drops the first occurrence; the callers below only
    remove elements they have found in the list. *)
Fixpoint remove (x : string) (l : list string) : list string :=
  match l with
  | [] => []
  | y :: l' => if decide (x = y) then l' else y :: remove x l'
  end.

(** [s.lstrip()], [s.rstrip()] and [s.strip()]: the white space at the ends
    is dropped. *)
Fixpoint lstrip (s : string) : string :=
  match s with
  | "" => ""
  | String c s' => if is_space c then lstrip s' else s
  end.

Fixpoint rstrip (s : string) : string :=
  match s with
  | "" => ""
  | String c s' =>
      match rstrip s' with
      | "" => if is_space c then "" else String c ""
      | r => String c r
      end
  end.

Definition strip (s : string) : string := rstrip (lstrip s).

(** [s.replace(old, new)] for a non-empty [old]: the occurrences of [old]
    are replaced from left to right; [skip] counts the characters of an
    occurrence still to be passed over. *)
Fixpoint replace_go (old new : string) (skip : nat) (s : string) : string :=
  match s with
  | "" => ""
  | String c s' =>
      match skip with
      | S k => replace_go old new k s'
      | O =>
          if String.prefix old s
          then new +:+ replace_go old new (String.length old - 1) s'
          else String c (replace_go old new 0 s')
      end
  end.

Definition replace (old new s : string) : string := replace_go old new 0 s.

(** The double quote character, as a string. *)
Definition dquote : string := String "034"%char "".

End Py.

(** ** Exceptions and results *)

Inductive Exn :=
| HadoopNotInitializedException
| AttributeError
| ZeroDivisionError
| IndexError
| IOError
| OSError.

Inductive outcome (A : Type) :=
| Ok (a : A)
| Raise (e : Exn).
Arguments Ok {A} a.
Arguments Raise {A} e.

#[global] Instance Exn_eq_dec : EqDecision Exn.
Proof. solve_decision. Defined.

(** ** The collaborators *)

Record Host := { address : string }.

#[global] Instance Host_eq_dec : EqDecision Host.
Proof. solve_decision. Defined.

(** An [SshProcess] after [run()]. *)
Record Process := {
  finished_ok : bool;
  stdout : string;
  stderr : string;
  exit_code : Z
}.

(** The execo actions the two classes build. *)
Inductive ActionSpec :=
| Remote (cmd : string) (hosts : list Host)
| TaktukRemote (cmd : string) (hosts : list Host)
| Put (hosts : list Host) (files : list string) (dest : string)
| TaktukPut (hosts : list Host) (files : list string) (dest : string)
| Get (hosts : list Host) (files : list string) (dest : string).

(** An action after [run()]. *)
Record Action := {
  a_finished_ok : bool;
  a_ok : bool;
  a_ended : bool;
  processes : list Process
}.

(** [get_host_attributes(h)], the two entries the code reads:
    [['architecture']['smt_size']] and [int(['main_memory']['ram_size'])]. *)
Record HostAttributes := {
  smt_size : Z;
  ram_size : Z
}.

Inductive Level := INFO | WARN | ERROR.

(** The external calls, indexed by the type of their answer.  Calls of the
    local file system answer with an [outcome]: they may raise.
    [replace_in_xml_file] and [get_xml_params] are the helpers of
    [hadoop_g5k.util], [HadoopTopology_new] and [topology_create_files] the
    constructor and the [create_files] method of [hadoop_g5k.objects]'s
    [HadoopTopology]; [write_file] is [open(path, "w")], [write], [close]. *)
Inductive Op : Type → Type :=
| SshProcess_run (cmd : string) (h : Host) : Op Process
| Action_run (a : ActionSpec) : Op Action
| SequentialActions_run (l : list ActionSpec) : Op (list Action)
| Action_kill (a : ActionSpec) : Op unit
| os_path_exists (p : string) : Op bool
| os_listdir (p : string) : Op (outcome (list string))
| os_makedirs (p : string) : Op (outcome unit)
| shutil_copy (src dst : string) : Op (outcome unit)
| shutil_rmtree (p : string) : Op (outcome unit)
| tempfile_mkdtemp (suffix prefix dir : string) : Op (outcome string)
| write_file (path content : string) : Op (outcome unit)
| getpass_getuser : Op string
| replace_in_xml_file (f name value : string) (create_if_absent : bool) :
    Op (outcome bool)
| get_xml_params (f : string) (names : list string) :
    Op (outcome (gmap string (option string)))
| get_host_attributes (h : Host) : Op HostAttributes
| get_host_cluster (h : Host) : Op string
| HadoopTopology_new (hosts : list Host) (topo_list : option (list string)) :
    Op (outcome unit)
| topology_create_files (dir : string) : Op (outcome unit)
| logger (lvl : Level) (msg : string) : Op unit.

(** A world answers every call and moves on. *)
Class World (W : Type) := perform : ∀ {R : Type}, Op R → W → R * W.

(** ** The monad of the methods *)

Definition M (S W A : Type) : Type := S → W → outcome A * S * W.

Section Monad.
Context {S W : Type}.

Definition ret {A} (a : A) : M S W A := λ s w, (Ok a, s, w).

Definition bind {A B} (m : M S W A) (k : A → M S W B) : M S W B :=
  λ s w,
    match m s w with
    | (Ok a, s', w') => k a s' w'
    | (Raise e, s', w') => (Raise e, s', w')
    end.

Definition raise {A} (e : Exn) : M S W A := λ s w, (Raise e, s, w).

(** Reading and assigning attributes of [self]. *)
Definition self {A} (f : S → A) : M S W A := λ s w, (Ok (f s), s, w).
Definition assign (f : S → S) : M S W unit := λ s w, (Ok tt, f s, w).

(** An external call. *)
Definition call `{!World W} {R} (op : Op R) : M S W R :=
  λ s w, let '(r, w') := perform op w in (Ok r, s, w').

(** An external call that may raise. *)
Definition call_exn `{!World W} {R} (op : Op (outcome R)) : M S W R :=
  λ s w,
    match perform op w with
    | (Ok r, w') => (Ok r, s, w')
    | (Raise e, w') => (Raise e, s, w')
    end.

Definition lift_outcome {A} (o : outcome A) : M S W A :=
  λ s w, (o, s, w).

End Monad.

Notation "x <- m ;; k" := (bind m (λ x, k))
  (at level 100, m at next level, right associativity,
   format "'[v' x  <-  m  ;; '/' k ']'").
Notation "m ;;; k" := (bind m (λ _, k))
  (at level 100, right associativity,
   format "'[v' m  ;;; '/' k ']'").

Section Loops.
Context {S W : Type}.

(** [for x in l: body(x)] *)
Fixpoint for_each {A} (l : list A) (body : A → M S W unit) : M S W unit :=
  match l with
  | [] => ret tt
  | x :: l' => body x ;;; for_each l' body
  end.

Definition when (b : bool) (m : M S W unit) : M S W unit :=
  if b then m else ret tt.

End Loops.

(** [l[0]] *)
Definition index0 {A} (l : list A) : outcome A :=
  match l with
  | x :: _ => Ok x
  | [] => Raise IndexError
  end.


(** ** [hadoop_g5k/cluster.py] *)

Module HadoopCluster.

(** Configuration files *)
Definition CORE_CONF_FILE := "core-site.xml".
Definition HDFS_CONF_FILE := "hdfs-site.xml".
Definition MR_CONF_FILE := "mapred-site.xml".

(** Default parameters *)
Definition DEFAULT_HADOOP_BASE_DIR := "/tmp/hadoop".
Definition DEFAULT_HADOOP_CONF_DIR := DEFAULT_HADOOP_BASE_DIR +:+ "/conf".
Definition DEFAULT_HADOOP_LOGS_DIR := DEFAULT_HADOOP_BASE_DIR +:+ "/logs".
Definition DEFAULT_HADOOP_TEMP_DIR := DEFAULT_HADOOP_BASE_DIR +:+ "/tmp".
Definition DEFAULT_HADOOP_HDFS_PORT : Z := 54310.
Definition DEFAULT_HADOOP_MR_PORT : Z := 54311.
Definition DEFAULT_HADOOP_LOCAL_CONF_DIR := "conf".

(** The properties [__init__] reads through [ConfigParser]. *)
Record Config := {
  hadoop_base_dir : string;
  hadoop_conf_dir : string;
  hadoop_logs_dir : string;
  hadoop_temp_dir_ : string;
  hdfs_port_ : Z;
  mapred_port_ : Z;
  local_base_conf_dir_ : string
}.

Definition defaults : Config := {|
  hadoop_base_dir := DEFAULT_HADOOP_BASE_DIR;
  hadoop_conf_dir := DEFAULT_HADOOP_CONF_DIR;
  hadoop_logs_dir := DEFAULT_HADOOP_LOGS_DIR;
  hadoop_temp_dir_ := DEFAULT_HADOOP_TEMP_DIR;
  hdfs_port_ := DEFAULT_HADOOP_HDFS_PORT;
  mapred_port_ := DEFAULT_HADOOP_MR_PORT;
  local_base_conf_dir_ := DEFAULT_HADOOP_LOCAL_CONF_DIR
|}.

(** The attributes [__init__] assigns once. *)
Record Props := {
  base_dir : string;
  conf_dir : string;
  logs_dir : string;
  hadoop_temp_dir : string;
  hdfs_port : Z;
  mapred_port : Z;
  local_base_conf_dir : string;
  bin_dir : string;
  sbin_dir : string;
  hosts : list Host;
  master : Host;
  host_clusters : gmap string (list Host)
}.

(** A [HadoopCluster] object: its fixed attributes, the cluster state, and
    [temp_conf_dir], an attribute that exists only once it has been
    assigned. *)
Record t := {
  props : Props;
  initialized : bool;
  running : bool;
  running_dfs : bool;
  running_map_reduce : bool;
  temp_conf_dir : option string
}.

Definition set_initialized (b : bool) (c : t) : t :=
  {| props := props c; initialized := b; running := running c;
     running_dfs := running_dfs c;
     running_map_reduce := running_map_reduce c;
     temp_conf_dir := temp_conf_dir c |}.

Definition set_running (b : bool) (c : t) : t :=
  {| props := props c; initialized := initialized c; running := b;
     running_dfs := running_dfs c;
     running_map_reduce := running_map_reduce c;
     temp_conf_dir := temp_conf_dir c |}.

Definition set_running_dfs (b : bool) (c : t) : t :=
  {| props := props c; initialized := initialized c; running := running c;
     running_dfs := b;
     running_map_reduce := running_map_reduce c;
     temp_conf_dir := temp_conf_dir c |}.

Definition set_running_map_reduce (b : bool) (c : t) : t :=
  {| props := props c; initialized := initialized c; running := running c;
     running_dfs := running_dfs c;
     running_map_reduce := b;
     temp_conf_dir := temp_conf_dir c |}.

Definition set_temp_conf_dir (d : string) (c : t) : t :=
  {| props := props c; initialized := initialized c; running := running c;
     running_dfs := running_dfs c;
     running_map_reduce := running_map_reduce c;
     temp_conf_dir := Some d |}.

(** What a job object of [hadoop_g5k.objects.HadoopJarJob] gives and
    receives in [execute_job]. *)
Record HadoopJarJob := {
  get_files_to_copy : list string;
  get_command : string → string;
  job_stdout : string;
  job_stderr : string;
  job_success : bool;
  job_id : option string
}.

Section Methods.
Context {W : Type} `{!World W}.

Abbreviation Meth := (M t W).

Definition prop {A} (f : Props → A) : Meth A := self (λ c, f (props c)).

(** Reading [self.temp_conf_dir]. *)
Definition self_temp_conf_dir : Meth string :=
  d <- self temp_conf_dir ;;
  match d with
  | Some d => ret d
  | None => raise AttributeError
  end.

Definition info (msg : string) : Meth unit := call (logger INFO msg).
Definition warn (msg : string) : Meth unit := call (logger WARN msg).
Definition error (msg : string) : Meth unit := call (logger ERROR msg).

(** The loop of [__init__] that fills [self.host_clusters]. *)
Fixpoint group_hosts (hs : list Host) (acc : gmap string (list Host)) :
    M unit W (gmap string (list Host)) :=
  match hs with
  | [] => ret acc
  | h :: hs' =>
      g5k_cluster <- call (get_host_cluster h) ;;
      match acc !! g5k_cluster with
      | Some l => group_hosts hs' (<[g5k_cluster := (l ++ [h])%list]> acc)
      | None => group_hosts hs' (<[g5k_cluster := [h]]> acc)
      end
  end.

(** [__init__(hosts, topo_list, config_file)]; [config] is what
    [ConfigParser] holds once the file, if any, is read.  The log message is
    kept as its format string. *)
Definition __init__ (hosts_ : list Host) (topo_list : option (list string))
    (config_file : option Config) : M unit W t :=
  let config := default defaults config_file in
  master_ <- lift_outcome (index0 hosts_) ;;
  call_exn (HadoopTopology_new hosts_ topo_list) ;;;
  hc <- group_hosts hosts_ ∅ ;;
  call (logger INFO
    "Hadoop cluster created with master %s, hosts %s and topology %s") ;;;
  ret {| props := {|
           base_dir := hadoop_base_dir config;
           conf_dir := hadoop_conf_dir config;
           logs_dir := hadoop_logs_dir config;
           hadoop_temp_dir := hadoop_temp_dir_ config;
           hdfs_port := hdfs_port_ config;
           mapred_port := mapred_port_ config;
           local_base_conf_dir := local_base_conf_dir_ config;
           bin_dir := hadoop_base_dir config +:+ "/bin";
           sbin_dir := hadoop_base_dir config +:+ "/bin";
           hosts := hosts_;
           master := master_;
           host_clusters := hc |};
         initialized := false;
         running := false;
         running_dfs := false;
         running_map_reduce := false;
         temp_conf_dir := None |}.

Definition _check_initialization : Meth unit :=
  i <- self initialized ;;
  if negb i then
    error "The cluster should be initialized" ;;;
    raise HadoopNotInitializedException
  else ret tt.

Definition start_dfs : Meth unit :=
  _check_initialization ;;;
  info "Starting HDFS" ;;;
  r <- self running_dfs ;;
  if r then warn "Dfs was already started"
  else
    sbin <- prop sbin_dir ;;
    m <- prop master ;;
    proc <- call (SshProcess_run (sbin +:+ "/start-dfs.sh") m) ;;
    if negb (finished_ok proc) then warn "Error while starting HDFS"
    else assign (set_running_dfs true).

Definition start_map_reduce : Meth unit :=
  _check_initialization ;;;
  info "Starting MapReduce" ;;;
  r <- self running_map_reduce ;;
  if r then warn "Error while starting MapReduce"
  else
    sbin <- prop sbin_dir ;;
    m <- prop master ;;
    proc <- call (SshProcess_run (sbin +:+ "/start-mapred.sh") m) ;;
    if negb (finished_ok proc) then info "MapReduce started successfully"
    else assign (set_running_map_reduce true).

Definition start : Meth unit :=
  _check_initialization ;;;
  start_dfs ;;;
  start_map_reduce ;;;
  assign (set_running true).

Definition start_dfs_and_wait : Meth unit :=
  _check_initialization ;;;
  start_dfs ;;;
  info "Waiting for safe mode to be off" ;;;
  bin <- prop bin_dir ;;
  m <- prop master ;;
  proc <- call (SshProcess_run (bin +:+ "/hadoop dfsadmin -safemode wait") m) ;;
  if negb (finished_ok proc) then warn "Error while starting HDFS"
  else assign (set_running_dfs true).

Definition start_map_reduce_and_wait : Meth unit :=
  _check_initialization ;;;
  start_map_reduce.

Definition start_and_wait : Meth unit :=
  _check_initialization ;;;
  start_dfs_and_wait ;;;
  start_map_reduce_and_wait ;;;
  assign (set_running true).

Definition stop_dfs : Meth unit :=
  _check_initialization ;;;
  info "Stopping HDFS" ;;;
  sbin <- prop sbin_dir ;;
  m <- prop master ;;
  proc <- call (SshProcess_run (sbin +:+ "/stop-dfs.sh") m) ;;
  if negb (finished_ok proc) then warn "Error while stopping HDFS"
  else assign (set_running_dfs false).

Definition stop_map_reduce : Meth unit :=
  _check_initialization ;;;
  info "Stopping MapReduce" ;;;
  sbin <- prop sbin_dir ;;
  m <- prop master ;;
  proc <- call (SshProcess_run (sbin +:+ "/stop-mapred.sh") m) ;;
  if negb (finished_ok proc) then warn "Error while stopping MapReduce"
  else assign (set_running_map_reduce false).

Definition stop : Meth unit :=
  _check_initialization ;;;
  stop_map_reduce ;;;
  stop_dfs ;;;
  assign (set_running false).

(** execo's printing of a host, here its address. *)
Definition str_host (h : Host) : string := address h.

(** [execute(command, node, should_be_running, verbose)]; the handlers that
    echo the output on the terminal are left out. *)
Definition execute (command : string) (node : option Host)
    (should_be_running verbose : bool) : Meth (string * string) :=
  _check_initialization ;;;
  r <- self running ;;
  when (should_be_running && negb r)
    (warn "The cluster was stopped. Starting it automatically" ;;;
     start) ;;;
  m <- prop master ;;
  let node := default m node in
  bin <- prop bin_dir ;;
  when verbose
    (info ("Executing {" +:+ bin +:+ "/hadoop " +:+ command +:+ "} in " +:+
           str_host node)) ;;;
  proc <- call (SshProcess_run (bin +:+ "/hadoop " +:+ command) node) ;;
  ret (stdout proc, stderr proc).

(** [sub in s] *)
Fixpoint contains (sub s : string) : bool :=
  if String.prefix sub s then true
  else match s with
       | "" => false
       | String _ s' => contains sub s'
       end.

(** Group 1 of [re.match] on a line, for a pattern made of a greedy
    wildcard, [pat] and a wildcard group: the text after the last [pat] of
    the line, if the line has one. *)
Fixpoint after_last (pat s : string) : option string :=
  match s with
  | "" => None
  | String _ s' =>
      match after_last pat s' with
      | Some r => Some r
      | None =>
          if String.prefix pat s
          then Some (String.substring (String.length pat)
                       (String.length s - String.length pat) s)
          else None
      end
  end.

(** The loop of [execute_job] that looks for the job id; a line on which
    [re.match] fails raises inside the [try] and is passed over. *)
Fixpoint find_job_id (lines : list string) : option string :=
  match lines with
  | [] => None
  | line :: lines' =>
      if contains "Running job" line &&
         (contains "mapred.JobClient" line || contains "mapreduce.Job" line)
      then match after_last "Running job: " line with
           | Some id => Some id
           | None => find_job_id lines'
           end
      else find_job_id lines'
  end.

Definition execute_job (job : HadoopJarJob) (node : option Host)
    (verbose : bool) : Meth (string * string * HadoopJarJob) :=
  _check_initialization ;;;
  r <- self running ;;
  when (negb r)
    (warn "The cluster was stopped. Starting it automatically" ;;;
     start) ;;;
  m <- prop master ;;
  let node := default m node in
  let exec_dir := "/tmp" in
  call (Action_run (Put [node] (get_files_to_copy job) exec_dir)) ;;;
  let command := get_command job exec_dir in
  bin <- prop bin_dir ;;
  info ("Executing jar job. Command = {" +:+ bin +:+ "/hadoop " +:+ command
        +:+ "} in " +:+ str_host node) ;;;
  proc <- call (SshProcess_run (bin +:+ "/hadoop " +:+ command) node) ;;
  let job' := {|
    get_files_to_copy := get_files_to_copy job;
    get_command := get_command job;
    job_stdout := stdout proc;
    job_stderr := stderr proc;
    job_success := bool_decide (exit_code proc = 0);
    job_id := match find_job_id (Py.splitlines (stdout proc)) with
              | Some id => Some id
              | None => job_id job
              end |} in
  ret (stdout proc, stderr proc, job').

Definition clean_conf : Meth unit :=
  d <- self_temp_conf_dir ;;
  call_exn (shutil_rmtree d).

Definition clean_logs : Meth unit :=
  info "Cleaning logs" ;;;
  r <- self running ;;
  restart <- (if r then
                warn "The cluster needs to be stopped before cleaning." ;;;
                stop ;;;
                ret true
              else ret false) ;;
  logs <- prop logs_dir ;;
  hs <- prop hosts ;;
  call (Action_run (Remote ("rm -rf " +:+ logs +:+ "/*") hs)) ;;;
  when restart start.

Definition clean_data : Meth unit :=
  r <- self running ;;
  when r
    (warn "The cluster needs to be stopped before cleaning." ;;;
     stop) ;;;
  info "Cleaning hadoop data" ;;;
  r <- self running ;;
  restart <- (if r then stop ;;; ret true else ret false) ;;
  tmp <- prop hadoop_temp_dir ;;
  user <- call getpass_getuser ;;
  hs <- prop hosts ;;
  call (Action_run (Remote ("rm -rf " +:+ tmp +:+ " /tmp/hadoop-" +:+ user
                            +:+ "-*") hs)) ;;;
  when restart start.

Definition clean : Meth unit :=
  r <- self running ;;
  when r
    (warn "The cluster needs to be stopped before cleaning." ;;;
     stop) ;;;
  clean_conf ;;;
  clean_logs ;;;
  clean_data ;;;
  assign (set_initialized false).

Definition hadoop_processes : list string :=
  ["DataNode"; "SecondaryNameNode"; "JobTracker"; "TaskTracker"; "NameNode"].

(** The inner loop of [__force_clean]: the ids of the lines of the [jps]
    output whose second field is a Hadoop process. *)
Fixpoint ids_to_kill (lines : list string) (acc : list string) :
    outcome (list string) :=
  match lines with
  | [] => Ok acc
  | line :: lines' =>
      match Py.split line with
      | pid :: name :: _ =>
          if bool_decide (name ∈ hadoop_processes)
          then ids_to_kill lines' (acc ++ [pid])%list
          else ids_to_kill lines' acc
      | _ => Raise IndexError
      end
  end.

Definition ids_to_kill_str (ids : list string) : string :=
  foldl (λ acc pid, acc +:+ " " +:+ pid) "" ids.

(** The loop of [__force_clean] over the hosts; it carries [force_kill]. *)
Fixpoint force_clean_hosts (hs : list Host) (force_kill : bool) : Meth bool :=
  match hs with
  | [] => ret force_kill
  | h :: hs' =>
      m <- prop master ;;
      proc <- call (SshProcess_run "jps" m) ;;
      ids <- lift_outcome (ids_to_kill (Py.splitlines (stdout proc)) []) ;;
      match ids with
      | [] => force_clean_hosts hs' force_kill
      | _ =>
          call (SshProcess_run ("kill -9" +:+ ids_to_kill_str ids) h) ;;;
          force_clean_hosts hs' true
      end
  end.

Definition __force_clean : Meth unit :=
  hs <- prop hosts ;;
  force_kill <- force_clean_hosts hs false ;;
  when force_kill
    (info "Processes from previous hadoop deployments had to be killed") ;;;
  clean_logs ;;;
  clean_data.

Definition _pre_initialize : Meth unit :=
  i <- self initialized ;;
  (if i then
     r <- self running ;;
     when r stop ;;;
     clean
   else __force_clean) ;;;
  assign (set_initialized false).

(** The loop of [_copy_base_conf] that takes the base files out of the
    list of the missing ones. *)
Fixpoint remove_present (base_conf_files missing : list string) : list string :=
  match base_conf_files with
  | [] => missing
  | f :: fs =>
      let f_base_name := Py.basename f in
      if bool_decide (f_base_name ∈ missing)
      then remove_present fs (Py.remove f_base_name missing)
      else remove_present fs missing
  end.

Definition _copy_base_conf : Meth unit :=
  d <- call_exn (tempfile_mkdtemp "" "hadoop-" "/tmp") ;;
  assign (set_temp_conf_dir d) ;;;
  local <- prop local_base_conf_dir ;;
  e <- call (os_path_exists local) ;;
  base_conf_files <-
    (if e then
       names <- call_exn (os_listdir local) ;;
       let files := Py.join local <$> names in
       for_each files (λ f,
         d <- self_temp_conf_dir ;;
         call_exn (shutil_copy f d)) ;;;
       ret files
     else
       warn "Local conf dir does not exist. Using default configuration" ;;;
       ret []) ;;
  let mandatory_files := [CORE_CONF_FILE; HDFS_CONF_FILE; MR_CONF_FILE] in
  let missing_conf_files := remove_present base_conf_files mandatory_files in
  info ("Copying missing conf files from master: " +:+
        Py.str_list missing_conf_files) ;;;
  conf <- prop conf_dir ;;
  let remote_missing_files := Py.join conf <$> missing_conf_files in
  m <- prop master ;;
  d <- self_temp_conf_dir ;;
  call (Action_run (Get [m] remote_missing_files d)) ;;;
  ret tt.

Definition _create_master_and_slave_conf : Meth unit :=
  d <- self_temp_conf_dir ;;
  m <- prop master ;;
  call_exn (write_file (d +:+ "/masters") (address m +:+ Py.nl)) ;;;
  d <- self_temp_conf_dir ;;
  hs <- prop hosts ;;
  call_exn (write_file (d +:+ "/slaves")
              (foldl (λ acc s, acc +:+ address s +:+ Py.nl) "" hs)).

(** [replace_in_xml_file(os.path.join(self.temp_conf_dir, file), ...)] *)
Definition replace_in_temp (file name value : string) : Meth unit :=
  d <- self_temp_conf_dir ;;
  call_exn (replace_in_xml_file (Py.join d file) name value true) ;;;
  ret tt.

Definition _configure_servers (hosts_ : option (list Host)) : Meth unit :=
  hs <- prop hosts ;;
  let hosts_ := match hosts_ with
                | Some (h :: l) => h :: l
                | _ => hs
                end in
  h0 <- lift_outcome (index0 hosts_) ;;
  host_attrs <- call (get_host_attributes h0) ;;
  let num_cores := smt_size host_attrs in
  let total_memory_mb := Z.div (ram_size host_attrs) (1024 * 1024) - 2 * 1024 in
  if decide (num_cores - 1 = 0) then raise ZeroDivisionError else
  let mem_per_slot_mb := Z.div total_memory_mb (num_cores - 1) in
  m <- prop master ;;
  hdfs <- prop hdfs_port ;;
  replace_in_temp CORE_CONF_FILE "fs.default.name"
    ("hdfs://" +:+ address m +:+ ":" +:+ Py.str hdfs +:+ "/") ;;;
  tmp <- prop hadoop_temp_dir ;;
  replace_in_temp CORE_CONF_FILE "hadoop.tmp.dir" tmp ;;;
  conf <- prop conf_dir ;;
  replace_in_temp CORE_CONF_FILE "topology.script.file.name"
    (conf +:+ "/topo.sh") ;;;
  mr <- prop mapred_port ;;
  replace_in_temp MR_CONF_FILE "mapred.job.tracker"
    (address m +:+ ":" +:+ Py.str mr) ;;;
  replace_in_temp MR_CONF_FILE "mapred.tasktracker.map.tasks.maximum"
    (Py.str (num_cores - 1)) ;;;
  replace_in_temp MR_CONF_FILE "mapred.tasktracker.reduce.tasks.maximum"
    (Py.str (num_cores - 1)) ;;;
  if decide (mem_per_slot_mb <= 0) then
    warn "Memory is negative, no setting"
  else
    replace_in_temp MR_CONF_FILE "mapred.child.java.opts"
      ("-Xmx" +:+ Py.str mem_per_slot_mb +:+ "m").

Definition _copy_conf (conf_dir_ : string) (hosts_ : option (list Host)) :
    Meth unit :=
  hs <- prop hosts ;;
  let hosts_ := match hosts_ with
                | Some (h :: l) => h :: l
                | _ => hs
                end in
  names <- call_exn (os_listdir conf_dir_) ;;
  let conf_files := Py.join conf_dir_ <$> names in
  conf <- prop conf_dir ;;
  let put := TaktukPut hosts_ conf_files conf in
  action <- call (Action_run put) ;;
  when (negb (a_finished_ok action))
    (warn "Error while copying configuration" ;;;
     when (negb (a_ended action)) (call (Action_kill put))).








Definition format_dfs : Meth unit :=
  info "Formatting HDFS" ;;;
  bin <- prop bin_dir ;;
  m <- prop master ;;
  proc <- call (SshProcess_run (bin +:+ "/hadoop namenode -format") m) ;;
  if finished_ok proc then info "HDFS formatted successfully"
  else warn "Error while formatting HDFS".

Definition initialize : Meth unit :=
  _pre_initialize ;;;
  info "Initializing hadoop" ;;;
  _copy_base_conf ;;;
  _create_master_and_slave_conf ;;;
  d <- self_temp_conf_dir ;;
  call_exn (topology_create_files d) ;;;
  hc <- prop host_clusters ;;
  for_each (map_to_list hc) (λ '(g5k_cluster, hosts_),
    _configure_servers (Some hosts_) ;;;
    d <- self_temp_conf_dir ;;
    _copy_conf d (Some hosts_)) ;;;
  format_dfs ;;;
  assign (set_initialized true).

(** [copy_history(dest, job_ids)]; a missing or empty [job_ids] asks for the
    history of all jobs. *)
Definition copy_history (dest : string) (job_ids : option (list string)) :
    Meth unit :=
  e <- call (os_path_exists dest) ;;
  when (negb e)
    (warn ("Destination directory " +:+ dest +:+
           " does not exist. It will be created") ;;;
     call_exn (os_makedirs dest)) ;;;
  logs <- prop logs_dir ;;
  let history_dir := Py.join logs "history" in
  m <- prop master ;;
  list_dirs <-
    match job_ids with
    | Some (j :: js) =>
        let pattern :=
          Py.sep_join " -o " ((λ jid, "-name " +:+ jid +:+ "*") <$> j :: js) in
        call (SshProcess_run ("find " +:+ history_dir +:+ " " +:+ pattern) m)
    | _ =>
        call (SshProcess_run ("find " +:+ history_dir +:+ " -name job_*") m)
    end ;;
  let remote_files := Py.splitlines (stdout list_dirs) in
  call (Action_run (Get [m] remote_files dest)) ;;;
  ret tt.

Definition clean_history : Meth unit :=
  info "Cleaning history" ;;;
  r <- self running ;;
  restart <- (if r then
                warn "The cluster needs to be stopped before cleaning." ;;;
                stop ;;;
                ret true
              else ret false) ;;
  logs <- prop logs_dir ;;
  m <- prop master ;;
  call (Action_run (Remote ("rm -rf " +:+ logs +:+ "/history") [m])) ;;;
  when restart start.

End Methods.

(** [bootstrap] assigns one more attribute, [java_home], that [get_version]
    reads; like [temp_conf_dir] it exists only once it has been assigned.
    The methods that use it run on the object with this attribute. *)
Record Installed := {
  cluster : t;
  java_home : option string
}.

Definition set_java_home (j : string) (s : Installed) : Installed :=
  {| cluster := cluster s; java_home := Some j |}.

Definition not_compliant_msg : string :=
  "Version of HadoopCluster is not compliant with the " +:+
  "distribution provided in the bootstrap option. Use " +:+
  "the appropiate parameter for --version when creating " +:+
  "the cluster or use another distribution.".

(** The command of [bootstrap] that prints the Java home. *)
Definition java_home_command : string :=
  "echo $(readlink -f /usr/bin/javac | " +:+
  "sed " +:+ Py.dquote +:+ "s:/bin/javac::" +:+ Py.dquote +:+ ")".

(** The command of [get_version]. *)
Definition version_command (java_home_ bin : string) : string :=
  "export JAVA_HOME=" +:+ java_home_ +:+ ";" +:+ bin +:+ "/hadoop version".

(** The versions [_check_version_compliance] accepts. *)
Definition compliant (version : string) : bool :=
  Py.startswith version "Hadoop 0." || Py.startswith version "Hadoop 1.".

Section Installation.
Context {W : Type} `{!World W}.

Definition iprop {A} (f : Props → A) : M Installed W A :=
  self (λ s, f (props (cluster s))).

(** Reading [self.java_home]. *)
Definition self_java_home : M Installed W string :=
  j <- self java_home ;;
  match j with
  | Some j => ret j
  | None => raise AttributeError
  end.

Definition get_version : M Installed W string :=
  j <- self_java_home ;;
  bin <- iprop bin_dir ;;
  m <- iprop master ;;
  proc <- call (SshProcess_run (version_command j bin) m) ;;
  lift_outcome (index0 (Py.splitlines (stdout proc))).

Definition _check_version_compliance : M Installed W bool :=
  version <- get_version ;;
  if negb (compliant version)
  then call (logger ERROR not_compliant_msg) ;;; ret false
  else ret true.

(** [bootstrap(tar_file)]; the two logging switches set on the processes
    of the package check are left out. *)
Definition bootstrap (tar_file : string) : M Installed W bool :=
  let required_packages := "openjdk-7-jre openjdk-7-jdk" in
  hs <- iprop hosts ;;
  check_packages <-
    call (Action_run (TaktukRemote ("dpkg -s " +:+ required_packages) hs)) ;;
  when (negb (a_ok check_packages))
    (call (logger INFO "Packages not installed, trying to install") ;;;
     install_packages <-
       call (Action_run (TaktukRemote
               ("export DEBIAN_MASTER=noninteractive ; " +:+
                "apt-get update && apt-get install -y --force-yes " +:+
                required_packages) hs)) ;;
     when (negb (a_ok install_packages))
       (call (logger ERROR "Unable to install the packages"))) ;;;
  m <- iprop master ;;
  get_java_home <- call (SshProcess_run java_home_command m) ;;
  assign (set_java_home (Py.strip (stdout get_java_home))) ;;;
  call (logger INFO "All required packages are present") ;;;
  call (logger INFO ("Copy " +:+ tar_file +:+ " to hosts and uncompress")) ;;;
  base <- iprop base_dir ;;
  conf <- iprop conf_dir ;;
  logs <- iprop logs_dir ;;
  tmp <- iprop hadoop_temp_dir ;;
  let rm_dirs := Remote ("rm -rf " +:+ base +:+
                         " " +:+ conf +:+
                         " " +:+ logs +:+
                         " " +:+ tmp) hs in
  let put_tar := TaktukPut hs [tar_file] "/tmp" in
  let tar_xf :=
    TaktukRemote ("tar xf /tmp/" +:+ Py.basename tar_file +:+ " -C /tmp") hs in
  call (SequentialActions_run [rm_dirs; put_tar; tar_xf]) ;;;
  call (logger INFO "Create installation directories") ;;;
  let mv_base_dir :=
    TaktukRemote ("mv /tmp/" +:+
                  Py.replace ".tar.gz" "" (Py.basename tar_file) +:+ " " +:+
                  base) hs in
  let mkdirs := TaktukRemote ("mkdir -p " +:+ conf +:+
                              " && mkdir -p " +:+ logs +:+
                              " && mkdir -p " +:+ tmp) hs in
  let chmods := TaktukRemote ("chmod g+w " +:+ base +:+
                              " && chmod g+w " +:+ conf +:+
                              " && chmod g+w " +:+ logs +:+
                              " && chmod g+w " +:+ tmp) hs in
  call (SequentialActions_run [mv_base_dir; mkdirs; chmods]) ;;;
  j <- self_java_home ;;
  let command :=
    "cat >> " +:+ conf +:+ "/hadoop-env.sh << EOF" +:+ Py.nl +:+
    "export JAVA_HOME=" +:+ j +:+ Py.nl +:+
    "export HADOOP_LOG_DIR=" +:+ logs +:+ Py.nl +:+
    "HADOOP_HOME_WARN_SUPPRESS=" +:+ Py.dquote +:+ "TRUE" +:+ Py.dquote +:+
    Py.nl +:+
    "EOF" in
  call (Action_run (Remote command hs)) ;;;
  _check_version_compliance.

End Installation.

End HadoopCluster.

(** ** [hadoop_g5k/ecosystem/cassandra.py] *)

Module CassandraCluster.

(** Default parameters *)
Definition DEFAULT_CASSANDRA_BASE_DIR := "/tmp/cassandra".
Definition DEFAULT_CASSANDRA_CONF_DIR := DEFAULT_CASSANDRA_BASE_DIR +:+ "/conf".
Definition DEFAULT_CASSANDRA_LOGS_DIR := DEFAULT_CASSANDRA_BASE_DIR +:+ "/logs".
Definition DEFAULT_CASSANDRA_DATA_DIR := DEFAULT_CASSANDRA_BASE_DIR +:+ "/data".

Record Config := {
  cassandra_base_dir : string;
  cassandra_conf_dir : string;
  cassandra_logs_dir : string;
  cassandra_data_dir : string
}.

Definition defaults : Config := {|
  cassandra_base_dir := DEFAULT_CASSANDRA_BASE_DIR;
  cassandra_conf_dir := DEFAULT_CASSANDRA_CONF_DIR;
  cassandra_logs_dir := DEFAULT_CASSANDRA_LOGS_DIR;
  cassandra_data_dir := DEFAULT_CASSANDRA_DATA_DIR
|}.

Record Props := {
  base_dir : string;
  conf_dir : string;
  logs_dir : string;
  data_dir : string;
  bin_dir : string;
  seeds : Host;
  hosts : list Host
}.

Record t := {
  props : Props;
  initialized : bool;
  running : bool
}.

Definition set_initialized (b : bool) (c : t) : t :=
  {| props := props c; initialized := b; running := running c |}.

Definition set_running (b : bool) (c : t) : t :=
  {| props := props c; initialized := initialized c; running := b |}.

Section Methods.
Context {W : Type} `{!World W}.

Abbreviation Meth := (M t W).

Definition prop {A} (f : Props → A) : Meth A := self (λ c, f (props c)).

Definition info (msg : string) : Meth unit := call (logger INFO msg).
Definition warn (msg : string) : Meth unit := call (logger WARN msg).
Definition error (msg : string) : Meth unit := call (logger ERROR msg).

(** [__init__(hosts, config_file)]; the log message is kept as its format
    string. *)
Definition __init__ (hosts_ : list Host) (config_file : option Config) :
    M unit W t :=
  let config := default defaults config_file in
  seeds_ <- lift_outcome (index0 hosts_) ;;
  call (logger INFO "Cassandra cluster created in hosts %s") ;;;
  ret {| props := {|
           base_dir := cassandra_base_dir config;
           conf_dir := cassandra_conf_dir config;
           logs_dir := cassandra_logs_dir config;
           data_dir := cassandra_data_dir config;
           bin_dir := cassandra_base_dir config +:+ "/bin";
           seeds := seeds_;
           hosts := hosts_ |};
         initialized := false;
         running := false |}.

(** The script [bootstrap] writes into [adjust_conf.py]. *)
Definition adjust_conf_script (bin : string) : string :=
  "cat >> " +:+ bin +:+ "/adjust_conf.py << EOF " +:+ Py.nl +:+
  "#!/usr/bin/env python" +:+ Py.nl +:+
  "import sys" +:+ Py.nl +:+
  "from yaml import load, dump, CDumper, Dumper" +:+ Py.nl +:+
  "conf_file = sys.argv[1]" +:+ Py.nl +:+
  "seeds = sys.argv[2]" +:+ Py.nl +:+
  "orig = load(open(conf_file))" +:+ Py.nl +:+
  "orig['seed_provider'][0]['parameters'][0]['seeds'] = seeds" +:+ Py.nl +:+
  "orig['listen_address'] = None" +:+ Py.nl +:+
  "orig['rpc_address'] = None" +:+ Py.nl +:+
  "orig['start_rpc'] = True" +:+ Py.nl +:+
  "orig['endpoint_snitch'] = 'GossipingPropertyFileSnitch'" +:+ Py.nl +:+
  "orig['auto_bootstrap'] = False" +:+ Py.nl +:+
  "new = dump(orig)" +:+ Py.nl +:+
  "out = open(conf_file, 'w')" +:+ Py.nl +:+
  "out.write(new)" +:+ Py.nl +:+
  "out.flush()" +:+ Py.nl +:+
  "out.close()" +:+ Py.nl +:+
  "EOF" +:+ Py.nl.

(** [bootstrap(tar_file)].  Its last statement assigns [True] to a local
    variable [initialized]: nothing of [self] is assigned. *)
Definition bootstrap (tar_file : string) : Meth unit :=
  info ("Copy " +:+ tar_file +:+ " to hosts and uncompress") ;;;
  base <- prop base_dir ;;
  conf <- prop conf_dir ;;
  hs <- prop hosts ;;
  let rm_dirs := TaktukRemote ("rm -rf " +:+ base +:+ " " +:+ conf) hs in
  let put_tar := TaktukPut hs [tar_file] "/tmp" in
  let mkdirs := TaktukRemote ("mkdir -p " +:+ base) hs in
  let tar_xf :=
    TaktukRemote ("tar xzf /tmp/" +:+ Py.basename tar_file +:+
                  " --strip-components=1 -C " +:+ base) hs in
  call (SequentialActions_run [rm_dirs; put_tar; mkdirs; tar_xf]) ;;;
  bin <- prop bin_dir ;;
  let command_start :=
    "cat >> " +:+ bin +:+ "/start-cassandra.sh << EOF" +:+ Py.nl +:+
    bin +:+ "/cassandra -p " +:+
    base +:+ "/cassandra.pid" +:+ Py.nl +:+
    "EOF" +:+ Py.nl in
  call (Action_run (Remote command_start hs)) ;;;
  info "Create start/stop scripts" ;;;
  let command_stop :=
    "cat >> " +:+ bin +:+ "/stop-cassandra.sh << EOF" +:+ Py.nl +:+
    "kill \`cat " +:+ base +:+ "/cassandra.pid\`" +:+ Py.nl +:+
    "EOF" +:+ Py.nl in
  call (Action_run (Remote command_stop hs)) ;;;
  info "Create the script to adjust the cassandra.yaml file" ;;;
  call (Action_run (Remote (adjust_conf_script bin) hs)) ;;;
  info "Create installation directories" ;;;
  data <- prop data_dir ;;
  logs <- prop logs_dir ;;
  let mkdirs := TaktukRemote ("mkdir -p " +:+ conf +:+
                              " ; mkdir -p " +:+ data +:+
                              " ; mkdir -p " +:+ logs) hs in
  let chmods := TaktukRemote ("chmod g+w " +:+ base +:+
                              " ; chmod g+w " +:+ conf +:+
                              " ; chmod g+w " +:+ data +:+
                              " ; chmod g+w " +:+ logs +:+
                              " ; chmod -R gu+x " +:+ bin) hs in
  call (SequentialActions_run [mkdirs; chmods]) ;;;
  let initialized := true in
  ret tt.

Definition _configure_nodes (hosts_ : option (list Host)) : Meth unit :=
  hs <- prop hosts ;;
  let hosts_ := default hs hosts_ in
  conf <- prop conf_dir ;;
  let config_file := conf +:+ "/cassandra.yaml" in
  bin <- prop bin_dir ;;
  sd <- prop seeds ;;
  call (Action_run (TaktukRemote (bin +:+ "/adjust_conf.py " +:+ config_file
                                  +:+ " " +:+ address sd) hosts_)) ;;;
  ret tt.

Definition initialize : Meth unit :=
  info "Initializing Cassandra" ;;;
  hs <- prop hosts ;;
  _configure_nodes (Some hs) ;;;
  assign (set_initialized true).

(** [finished_ok] of the [i]-th action of a sequence that has run; an
    action the sequence did not reach has not finished. *)
Definition nth_finished_ok (l : list Action) (i : nat) : bool :=
  default false (a_finished_ok <$> l !! i).

Definition start : Meth unit :=
  info "Starting Cassandra" ;;;
  i <- self initialized ;;
  if bool_decide (i = false) then
    error ("Cassandra not inicalized yet! " +:+ "You must initialize it first")
  else
    r <- self running ;;
    if r then warn "Cassandra was already started"
    else
      bin <- prop bin_dir ;;
      sd <- prop seeds ;;
      hs <- prop hosts ;;
      let start_seeds := TaktukRemote (bin +:+ "/start-cassandra.sh") [sd] in
      let start_nodes := TaktukRemote (bin +:+ "/start-cassandra.sh") (tail hs) in
      res <- call (SequentialActions_run [start_seeds; start_nodes]) ;;
      if negb (nth_finished_ok res 0) || negb (nth_finished_ok res 1) then
        warn "Error while starting Cassandra"
      else assign (set_running true).

Definition stop : Meth unit :=
  info "Stopping Cassandra" ;;;
  bin <- prop bin_dir ;;
  hs <- prop hosts ;;
  call (Action_run (TaktukRemote (bin +:+ "/stop-cassandra.sh") hs)) ;;;
  assign (set_running false).

Definition clean_conf : Meth unit :=
  conf <- prop conf_dir ;;
  hs <- prop hosts ;;
  call (Action_run (Remote ("rm -rf " +:+ conf +:+ "/cassandra.yaml") hs)) ;;;
  ret tt.

Definition clean_data : Meth unit :=
  data <- prop data_dir ;;
  hs <- prop hosts ;;
  call (Action_run (Remote ("rm -rf " +:+ data +:+ "/* ") hs)) ;;;
  ret tt.

Definition clean_logs : Meth unit :=
  logs <- prop logs_dir ;;
  hs <- prop hosts ;;
  call (Action_run (Remote ("rm -rf " +:+ logs +:+ "/* ") hs)) ;;;
  ret tt.

Definition clean : Meth unit :=
  r <- self running ;;
  when r
    (warn "The cluster needs to be stopped before cleaning." ;;;
     stop) ;;;
  clean_conf ;;;
  clean_data ;;;
  assign (set_initialized false).

Definition _pre_initialize : Meth unit :=
  i <- self initialized ;;
  when i
    (r <- self running ;;
     when r stop ;;;
     clean) ;;;
  assign (set_initialized false).

End Methods.

End CassandraCluster.

(** ** A world that records the calls

    The calls are kept in a history, newest first.  A script answers a call
    from the history so far and the call itself; where the script is silent
    the call gets a default answer (commands succeed and print nothing,
    directories are empty).  Every deterministic behaviour of the outside is
    the behaviour of some script. *)

Record AnyOp := any_op { op_type : Type; op_of : Op op_type }.
Arguments any_op {_} _.

Definition Script := ∀ R : Type, list AnyOp → Op R → option R.

Record Recorded := {
  script : Script;
  history : list AnyOp
}.

Definition ok_process : Process :=
  {| finished_ok := true; stdout := ""; stderr := ""; exit_code := 0 |}.

Definition failed_process : Process :=
  {| finished_ok := false; stdout := ""; stderr := ""; exit_code := 1 |}.

Definition spec_hosts (a : ActionSpec) : list Host :=
  match a with
  | Remote _ hs | TaktukRemote _ hs | Put hs _ _ | TaktukPut hs _ _
  | Get hs _ _ => hs
  end.

Definition ok_action (a : ActionSpec) : Action :=
  {| a_finished_ok := true; a_ok := true; a_ended := true;
     processes := (λ _, ok_process) <$> spec_hosts a |}.

Definition default_answer {R} (op : Op R) : R :=
  match op in Op R return R with
  | SshProcess_run _ _ => ok_process
  | Action_run a => ok_action a
  | SequentialActions_run l => ok_action <$> l
  | Action_kill _ => tt
  | os_path_exists _ => false
  | os_listdir _ => Ok []
  | os_makedirs _ => Ok tt
  | shutil_copy _ _ => Ok tt
  | shutil_rmtree _ => Ok tt
  | tempfile_mkdtemp suffix prefix dir =>
      Ok (dir +:+ "/" +:+ prefix +:+ "tmp" +:+ suffix)
  | write_file _ _ => Ok tt
  | getpass_getuser => "user"
  | replace_in_xml_file _ _ _ create => Ok create
  | get_xml_params _ names => Ok (list_to_map ((λ n, (n, None)) <$> names))
  | get_host_attributes _ =>
      {| smt_size := 4; ram_size := 8 * 1024 * 1024 * 1024 |}
  | get_host_cluster _ => "cluster"
  | HadoopTopology_new _ _ => Ok tt
  | topology_create_files _ => Ok tt
  | logger _ _ => tt
  end.

Definition answer {R} (s : Script) (hist : list AnyOp) (op : Op R) : R :=
  default (default_answer op) (s R hist op).

#[global] Instance Recorded_World : World Recorded :=
  λ R op w,
    (answer (script w) (history w) op,
     {| script := script w; history := any_op op :: history w |}).

(** The calls in the order they were made. *)
Definition trace (w : Recorded) : list AnyOp := reverse (history w).

Definition silent : Script := λ _ _ _, None.

Definition new_world (s : Script) : Recorded :=
  {| script := s; history := [] |}.

(** The ssh commands among the calls, with the host they ran on. *)
Definition ssh_command (e : AnyOp) : option (string * Host) :=
  match op_of e with
  | SshProcess_run cmd h => Some (cmd, h)
  | _ => None
  end.

Definition ssh_commands (l : list AnyOp) : list (string * Host) :=
  omap ssh_command l.

(** The calls of [replace_in_xml_file] among the calls. *)
Definition xml_write (e : AnyOp) : option (string * string * string * bool) :=
  match op_of e with
  | replace_in_xml_file f name value create => Some (f, name, value, create)
  | _ => None
  end.

Definition xml_writes (l : list AnyOp) : list (string * string * string * bool) :=
  omap xml_write l.

(** The calls that are not log messages. *)
Definition is_log (e : AnyOp) : bool :=
  match op_of e with
  | logger _ _ => true
  | _ => false
  end.

Definition actions (l : list AnyOp) : list AnyOp :=
  filter (λ e, is_log e = false) l.

(** ** A world with configuration files

    The local files and the files of the hosts are configuration files,
    kept by their full path.  This world interprets the calls that read,
    write and move them: [os.path.exists], [os.makedirs] and [os.listdir],
    the two helpers of [hadoop_g5k.util], the [Get] and [Put] actions, and
    the [Remote] action that lists the xml files of a directory with [ls].
    Transfers succeed when the files they name exist.  Every other call is
    passed to an underlying world. *)

(** Modelled from the spec: the configuration file format, which the spec
    gives as a document of ordered (name, value, final) properties; the
    parser and writer of [hadoop_g5k.util] are not in the sources.  The
    calls of the sources pass no final flag, so a property is a name and a
    value here. *)
Abbreviation File := (list (string * string)).

Record Files := {
  local_files : gmap string File;
  local_dirs : gset string;
  remote_files : gmap (string * string) File
}.

Module Conf.

(** The value of the first property called [name]. *)
Fixpoint lookup (name : string) (f : File) : option string :=
  match f with
  | [] => None
  | (n, v) :: f' => if decide (n = name) then Some v else lookup name f'
  end.

(** Every property called [name] gets the value [value], in place. *)
Definition set_value (name value : string) (f : File) : File :=
  (λ p, if decide (p.1 = name) then (p.1, value) else p) <$> f.

(** Modelled from the spec: [replace_in_xml_file(f, name, value,
    create_if_absent)] of [hadoop_g5k.util], on the content of the file.
    The spec: on finding the key, replaces its value in place and returns
    true; if not found, the key/value is appended (here when
    [create_if_absent] is set, as the callers pass it for the fallback
    file) and the result is false. *)
Definition replace (name value : string) (create_if_absent : bool) (f : File) :
    bool * File :=
  match lookup name f with
  | Some _ => (true, set_value name value f)
  | None =>
      if create_if_absent then (false, (f ++ [(name, value)])%list)
      else (false, f)
  end.

(** Modelled from the spec: [get_xml_params(f, names)] of
    [hadoop_g5k.util], on the content of the file: a dictionary that gives,
    for each requested name, its value in the file, or [None] when the
    file has no such property ([get_conf] tests the entries for truth). *)
Definition params (names : list string) (f : File) : gmap string (option string) :=
  list_to_map ((λ n, (n, lookup n f)) <$> names).










Definition write_local (F : Files) (p : string) (f : File) : Files :=
  {| local_files := <[p := f]> (local_files F);
     local_dirs := local_dirs F;
     remote_files := remote_files F |}.

Definition replace_in_xml_file (F : Files) (p name value : string)
    (create_if_absent : bool) : outcome bool * Files :=
  match local_files F !! p with
  | Some f =>
      let '(found, f') := replace name value create_if_absent f in
      (Ok found, write_local F p f')
  | None => (Raise IOError, F)
  end.

Definition get_xml_params (F : Files) (p : string) (names : list string) :
    outcome (gmap string (option string)) :=
  match local_files F !! p with
  | Some f => Ok (params names f)
  | None => Raise IOError
  end.
















End Conf.


(** ** What [change_conf] and [get_conf] do to the files

    The steps of the two methods as functions on [Files]; the properties
    show that the methods compute them. *)










(** ** Sessions in the recording world *)

(** A controller is constructed for [hosts_] with the default properties,
    then [m] runs on it. *)
Definition session {A} (hosts_ : list Host) (s : Script)
    (m : M HadoopCluster.t Recorded A) :
    outcome A * option HadoopCluster.t * Recorded :=
  match HadoopCluster.__init__ hosts_ None None tt (new_world s) with
  | (Ok c, _, w) => let '(r, c', w') := m c w in (r, Some c', w')
  | (Raise e, _, w) => (Raise e, None, w)
  end.

Definition node1 : Host := {| address := "node-1.site.grid5000.fr" |}.
Definition node2 : Host := {| address := "node-2.site.grid5000.fr" |}.

(** The ssh commands of the list fail whenever they run. *)
Definition failing_commands (l : list string) : Script :=
  λ R _ op,
    match op in Op R return option R with
    | SshProcess_run cmd _ =>
        if bool_decide (cmd ∈ l) then Some failed_process else None
    | _ => None
    end.

(** [jps] prints [out h] on host [h]. *)
Definition jps_prints (out : Host → string) : Script :=
  λ R _ op,
    match op in Op R return option R with
    | SshProcess_run cmd h =>
        if bool_decide (cmd = "jps")
        then Some {| finished_ok := true; stdout := out h; stderr := "";
                     exit_code := 0 |}
        else None
    | _ => None
    end.

(** Every host has the given number of cores and bytes of memory. *)
Definition hosts_with (cores ram : Z) : Script :=
  λ R _ op,
    match op in Op R return option R with
    | get_host_attributes _ => Some {| smt_size := cores; ram_size := ram |}
    | _ => None
    end.

(** The commands of a host succeed whenever they run. *)
Definition ssh_ok (s : Script) (cmd : string) (h : Host) : Prop :=
  ∀ hist, finished_ok (answer s hist (SshProcess_run cmd h)) = true.

(** The commands of a host fail whenever they run. *)
Definition ssh_fails (s : Script) (cmd : string) (h : Host) : Prop :=
  ∀ hist, finished_ok (answer s hist (SshProcess_run cmd h)) = false.

(** What the outside answers to [op] once the calls [calls] have been made,
    in this order, after those of [w]. *)
Definition answered {R} (w : Recorded) (calls : list AnyOp) (op : Op R) : R :=
  answer (script w) (reverse calls ++ history w) op.

(** The Grid'5000 API describes [h] with [cores] threads and [ram] bytes of
    memory. *)
Definition attributes_are (s : Script) (h : Host) (cores ram : Z) : Prop :=
  ∀ hist, answer s hist (get_host_attributes h) =
            {| smt_size := cores; ram_size := ram |}.

(** [replace_in_xml_file] never raises. *)
Definition xml_files_writable (s : Script) : Prop :=
  ∀ hist f name value create,
    ∃ found, answer s hist (replace_in_xml_file f name value create) = Ok found.

Definition MB : Z := 1024 * 1024.

(** The result of a session and the flags of the cluster at its end:
    [initialized], [running], [running_dfs], [running_map_reduce]. *)
Definition hadoop_flags (c : HadoopCluster.t) : bool * bool * bool * bool :=
  (HadoopCluster.initialized c, HadoopCluster.running c,
   HadoopCluster.running_dfs c, HadoopCluster.running_map_reduce c).

Definition result_and_flags {A}
    (x : outcome A * option HadoopCluster.t * Recorded) :
    outcome A * option (bool * bool * bool * bool) :=
  (x.1.1, hadoop_flags <$> x.1.2).

(** The commands the scenarios below make fail. *)
Definition start_dfs_sh := "/tmp/hadoop/bin/start-dfs.sh".
Definition stop_dfs_sh := "/tmp/hadoop/bin/stop-dfs.sh".
Definition stop_mapred_sh := "/tmp/hadoop/bin/stop-mapred.sh".
Definition namenode_format := "/tmp/hadoop/bin/hadoop namenode -format".

(** [jps] finds a leftover DataNode on the second host and nothing on the
    master. *)
Definition leftover_on_node2 : Script :=
  jps_prints (λ h, if decide (h = node2) then "4242 DataNode" +:+ Py.nl
                   else "").

(** A cluster object on [node1] alone, with the default properties, as
    [__init__] builds it but for the flags and [temp_conf_dir]. *)
Definition example_cluster (i r d m : bool) (tmp : option string) :
    HadoopCluster.t :=
  {| HadoopCluster.props := {|
       HadoopCluster.base_dir := "/tmp/hadoop";
       HadoopCluster.conf_dir := "/tmp/hadoop/conf";
       HadoopCluster.logs_dir := "/tmp/hadoop/logs";
       HadoopCluster.hadoop_temp_dir := "/tmp/hadoop/tmp";
       HadoopCluster.hdfs_port := 54310;
       HadoopCluster.mapred_port := 54311;
       HadoopCluster.local_base_conf_dir := "conf";
       HadoopCluster.bin_dir := "/tmp/hadoop/bin";
       HadoopCluster.sbin_dir := "/tmp/hadoop/bin";
       HadoopCluster.hosts := [node1];
       HadoopCluster.master := node1;
       HadoopCluster.host_clusters := {[ "cluster" := [node1] ]} |};
     HadoopCluster.initialized := i;
     HadoopCluster.running := r;
     HadoopCluster.running_dfs := d;
     HadoopCluster.running_map_reduce := m;
     HadoopCluster.temp_conf_dir := tmp |}.

(** A Cassandra cluster object on [node1] and [node2], as its [__init__]
    builds it. *)
Definition example_cassandra : CassandraCluster.t :=
  {| CassandraCluster.props := {|
       CassandraCluster.base_dir := "/tmp/cassandra";
       CassandraCluster.conf_dir := "/tmp/cassandra/conf";
       CassandraCluster.logs_dir := "/tmp/cassandra/logs";
       CassandraCluster.data_dir := "/tmp/cassandra/data";
       CassandraCluster.bin_dir := "/tmp/cassandra/bin";
       CassandraCluster.seeds := node1;
       CassandraCluster.hosts := [node1; node2] |};
     CassandraCluster.initialized := false;
     CassandraCluster.running := false |}.




(** * Properties *)

(** ** Running the monad *)

Section Run.
Context {S W : Type} `{!World W}.

(** The world after a log message. *)
Definition logged (lvl : Level) (msg : string) (w : W) : W :=
  (perform (logger lvl msg) w).2.

Lemma bind_ok {A B} (m : M S W A) (k : A → M S W B) s w a s' w' :
  m s w = (Ok a, s', w') → bind m k s w = k a s' w'.
Proof. intros H. unfold bind. by rewrite H. Qed.

Lemma bind_raised {A B} (m : M S W A) (k : A → M S W B) s w e s' w' :
  m s w = (Raise e, s', w') → bind m k s w = (Raise e, s', w').
Proof. intros H. unfold bind. by rewrite H. Qed.

Lemma bind_bind {A B C} (m : M S W A) (k1 : A → M S W B) (k2 : B → M S W C) s w :
  bind (bind m k1) k2 s w = bind m (λ a, bind (k1 a) k2) s w.
Proof. unfold bind. by destruct (m s w) as [[[a|e] s'] w']. Qed.

Lemma bind_ret {A B} (a : A) (k : A → M S W B) s w :
  bind (ret a) k s w = k a s w.
Proof. reflexivity. Qed.

Lemma bind_raise {A B} (e : Exn) (k : A → M S W B) s w :
  bind (raise e) k s w = (Raise e, s, w).
Proof. reflexivity. Qed.

Lemma bind_self {A B} (f : S → A) (k : A → M S W B) s w :
  bind (self f) k s w = k (f s) s w.
Proof. reflexivity. Qed.

Lemma bind_assign {B} (f : S → S) (k : unit → M S W B) s w :
  bind (assign f) k s w = k tt (f s) w.
Proof. reflexivity. Qed.

Lemma bind_call {R B} (op : Op R) (k : R → M S W B) s w :
  bind (call op) k s w = k (perform op w).1 s (perform op w).2.
Proof. unfold bind, call. by destruct (perform op w). Qed.

Lemma bind_log {B} lvl msg (k : unit → M S W B) s w :
  bind (call (logger lvl msg)) k s w = k tt s (logged lvl msg w).
Proof. rewrite bind_call. by destruct (perform (logger lvl msg) w).1. Qed.

Lemma bind_call_exn {R B} (op : Op (outcome R)) (k : R → M S W B) s w :
  bind (call_exn op) k s w =
    match (perform op w).1 with
    | Ok r => k r s (perform op w).2
    | Raise e => (Raise e, s, (perform op w).2)
    end.
Proof. unfold bind, call_exn. by destruct (perform op w) as [[r|e] w']. Qed.

Lemma bind_lift_outcome {A B} (o : outcome A) (k : A → M S W B) s w :
  bind (lift_outcome o) k s w =
    match o with
    | Ok a => k a s w
    | Raise e => (Raise e, s, w)
    end.
Proof. by destruct o. Qed.

Lemma bind_if {A B} (b : bool) (m1 m2 : M S W A) (k : A → M S W B) s w :
  bind (if b then m1 else m2) k s w =
    if b then bind m1 k s w else bind m2 k s w.
Proof. by destruct b. Qed.

Lemma bind_unit {A} (m : M S W A) s w :
  (∃ a s' w', m s w = (Ok a, s', w')) ∨ (∃ e s' w', m s w = (Raise e, s', w')).
Proof. destruct (m s w) as [[[a|e] s'] w']; eauto 6. Qed.

Lemma bind_ok_inv {A B} (m : M S W A) (k : A → M S W B) s w b s' w' :
  bind m k s w = (Ok b, s', w') →
  ∃ a s1 w1, m s w = (Ok a, s1, w1) ∧ k a s1 w1 = (Ok b, s', w').
Proof.
  unfold bind. destruct (m s w) as [[[a|e] s1] w1]; [eauto 6 | done].
Qed.

Lemma bind_raise_inv {A B} (m : M S W A) (k : A → M S W B) s w e s' w' :
  bind m k s w = (Raise e, s', w') →
  m s w = (Raise e, s', w') ∨
  ∃ a s1 w1, m s w = (Ok a, s1, w1) ∧ k a s1 w1 = (Raise e, s', w').
Proof.
  unfold bind. destruct (m s w) as [[[a|e1] s1] w1]; intros H.
  - right. by exists a, s1, w1.
  - left. by injection H as -> -> ->.
Qed.

Lemma run_call {R} (op : Op R) (s : S) (w : W) :
  call op s w = (Ok (perform op w).1, s, (perform op w).2).
Proof. unfold call. by destruct (perform op w). Qed.

Lemma run_log lvl msg (s : S) (w : W) :
  call (logger lvl msg) s w = (Ok tt, s, logged lvl msg w).
Proof. rewrite run_call. by destruct (perform (logger lvl msg) w).1. Qed.

Lemma run_call_exn {R} (op : Op (outcome R)) (s : S) (w : W) :
  call_exn op s w =
    match (perform op w).1 with
    | Ok r => (Ok r, s, (perform op w).2)
    | Raise e => (Raise e, s, (perform op w).2)
    end.
Proof. unfold call_exn. by destruct (perform op w) as [[r|e] w']. Qed.

End Run.

(** One step of a method: the head of a sequence is run. *)
Ltac mstep :=
  first
    [ rewrite bind_bind
    | rewrite bind_ret
    | rewrite bind_raise
    | rewrite bind_self
    | rewrite bind_assign
    | rewrite bind_log
    | rewrite bind_call
    | rewrite bind_call_exn
    | rewrite bind_lift_outcome
    | rewrite run_log
    | rewrite run_call
    | rewrite run_call_exn ].

Ltac mrun := repeat mstep.

(** ** Attributes a method leaves alone *)

Section Keeps.
Context {S W : Type} `{!World W}.

(** [m] keeps [P]: if [P] holds of the object before [m], it holds after,
    whether [m] returns or raises. *)
Definition keeps {A} (P : S → Prop) (m : M S W A) : Prop :=
  ∀ s w, P s → P (m s w).1.2.

Lemma keeps_ret {A} P (a : A) : keeps P (ret a).
Proof. by intros s w H. Qed.

Lemma keeps_raise {A} P e : keeps P (raise (A:=A) e).
Proof. by intros s w H. Qed.

Lemma keeps_self {A} P (f : S → A) : keeps P (self f).
Proof. by intros s w H. Qed.

Lemma keeps_lift_outcome {A} P (o : outcome A) : keeps P (lift_outcome o).
Proof. by intros s w H. Qed.

Lemma keeps_call {R} P (op : Op R) : keeps P (call op).
Proof. intros s w H. unfold call. by destruct (perform op w). Qed.

Lemma keeps_call_exn {R} P (op : Op (outcome R)) : keeps P (call_exn op).
Proof. intros s w H. unfold call_exn. by destruct (perform op w) as [[r|e] w']. Qed.

Lemma keeps_assign P (f : S → S) : (∀ s, P s → P (f s)) → keeps P (assign f).
Proof. intros Hf s w H. by apply Hf. Qed.

Lemma keeps_bind {A B} P (m : M S W A) (k : A → M S W B) :
  keeps P m → (∀ a, keeps P (k a)) → keeps P (bind m k).
Proof.
  intros Hm Hk s w H. specialize (Hm s w H). unfold bind.
  destruct (m s w) as [[[a|e] s'] w']; simpl in *; [by apply Hk | done].
Qed.

Lemma keeps_when P (b : bool) (m : M S W unit) : keeps P m → keeps P (when b m).
Proof. destruct b; [done | intros _; apply keeps_ret]. Qed.

Lemma keeps_for_each {A} P (l : list A) (body : A → M S W unit) :
  (∀ x, keeps P (body x)) → keeps P (for_each l body).
Proof.
  intros Hb. induction l as [|x l IH]; simpl; [apply keeps_ret|].
  apply keeps_bind; [apply Hb | by intros _].
Qed.


End Keeps.

Ltac keeps_step :=
  match goal with
  | |- keeps _ (bind _ _) => apply keeps_bind; [|intros ?]
  | |- keeps _ (ret _) => apply keeps_ret
  | |- keeps _ (raise _) => apply keeps_raise
  | |- keeps _ (self _) => apply keeps_self
  | |- keeps _ (lift_outcome _) => apply keeps_lift_outcome
  | |- keeps _ (call _) => apply keeps_call
  | |- keeps _ (call_exn _) => apply keeps_call_exn
  | |- keeps _ (assign _) => apply keeps_assign; by intros ?
  | |- keeps _ (when _ _) => apply keeps_when
  | |- keeps _ (for_each _ _) => apply keeps_for_each; intros ?
  | |- keeps _ (if ?b then _ else _) => destruct b
  | |- keeps _ (match ?x with _ => _ end) => destruct x
  | |- keeps _ (let '(_, _) := ?x in _) => destruct x
  end.


(** ** The Hadoop cluster in any world *)

Section Hadoop.
Import HadoopCluster.
Context {W : Type} `{!World W}.

Definition not_initialized_log : string := "The cluster should be initialized".

Lemma check_ok (c : t) (w : W) :
  initialized c = true → _check_initialization c w = (Ok tt, c, w).
Proof. intros H. unfold _check_initialization. mrun. by rewrite H. Qed.

Lemma check_fail (c : t) (w : W) :
  initialized c = false →
  _check_initialization c w =
    (Raise HadoopNotInitializedException, c, logged ERROR not_initialized_log w).
Proof.
  intros H. unfold _check_initialization, error. mrun. rewrite H. simpl. by mrun.
Qed.

Lemma checked_ok {A} (k : M t W A) (c : t) (w : W) :
  initialized c = true → bind _check_initialization (λ _, k) c w = k c w.
Proof. intros H. by rewrite (bind_ok _ _ _ _ _ _ _ (check_ok c w H)). Qed.

Lemma checked_fail {A} (k : M t W A) (c : t) (w : W) :
  initialized c = false →
  bind _check_initialization (λ _, k) c w =
    (Raise HadoopNotInitializedException, c, logged ERROR not_initialized_log w).
Proof. intros H. by rewrite (bind_raised _ _ _ _ _ _ _ (check_fail c w H)). Qed.

Definition ssh (cmd : string) (h : Host) (w : W) : Process * W :=
  perform (SshProcess_run cmd h) w.

Lemma stop_map_reduce_run (c : t) (w : W) :
  initialized c = true →
  stop_map_reduce c w =
    let r := ssh (sbin_dir (props c) +:+ "/stop-mapred.sh") (master (props c))
               (logged INFO "Stopping MapReduce" w) in
    (Ok tt,
     if finished_ok r.1 then set_running_map_reduce false c else c,
     if finished_ok r.1 then r.2
     else logged WARN "Error while stopping MapReduce" r.2).
Proof.
  intros H. unfold stop_map_reduce. rewrite checked_ok by done.
  unfold info, warn, prop, ssh. mrun. cbv zeta.
  destruct (finished_ok _); simpl; by mrun.
Qed.

Lemma stop_dfs_run (c : t) (w : W) :
  initialized c = true →
  stop_dfs c w =
    let r := ssh (sbin_dir (props c) +:+ "/stop-dfs.sh") (master (props c))
               (logged INFO "Stopping HDFS" w) in
    (Ok tt,
     if finished_ok r.1 then set_running_dfs false c else c,
     if finished_ok r.1 then r.2
     else logged WARN "Error while stopping HDFS" r.2).
Proof.
  intros H. unfold stop_dfs. rewrite checked_ok by done.
  unfold info, warn, prop, ssh. mrun. cbv zeta.
  destruct (finished_ok _); simpl; by mrun.
Qed.

Lemma stop_run (c : t) (w : W) :
  initialized c = true →
  stop c w =
    let r1 := ssh (sbin_dir (props c) +:+ "/stop-mapred.sh") (master (props c))
                (logged INFO "Stopping MapReduce" w) in
    let w1 := if finished_ok r1.1 then r1.2
              else logged WARN "Error while stopping MapReduce" r1.2 in
    let r2 := ssh (sbin_dir (props c) +:+ "/stop-dfs.sh") (master (props c))
                (logged INFO "Stopping HDFS" w1) in
    let w2 := if finished_ok r2.1 then r2.2
              else logged WARN "Error while stopping HDFS" r2.2 in
    (Ok tt,
     {| props := props c; initialized := true; running := false;
        running_dfs := if finished_ok r2.1 then false else running_dfs c;
        running_map_reduce :=
          if finished_ok r1.1 then false else running_map_reduce c;
        temp_conf_dir := temp_conf_dir c |},
     w2).
Proof.
  intros H. unfold stop. rewrite checked_ok by done.
  rewrite (bind_ok _ _ _ _ _ _ _ (stop_map_reduce_run _ _ H)).
  cbv zeta.
  destruct (finished_ok (ssh _ _ (logged INFO "Stopping MapReduce" w)).1) eqn:E1.
  all: (erewrite bind_ok; [|apply stop_dfs_run; exact H]); cbv zeta; simpl.
  all: match goal with |- context [finished_ok ?x] => destruct (finished_ok x) end.
  all: simpl; unfold assign, set_running; simpl; by rewrite ?H.
Qed.

Lemma start_dfs_run (c : t) (w : W) :
  initialized c = true →
  start_dfs c w =
    let w0 := logged INFO "Starting HDFS" w in
    let r := ssh (sbin_dir (props c) +:+ "/start-dfs.sh") (master (props c)) w0 in
    (Ok tt,
     if running_dfs c then c
     else if finished_ok r.1 then set_running_dfs true c else c,
     if running_dfs c then logged WARN "Dfs was already started" w0
     else if finished_ok r.1 then r.2
     else logged WARN "Error while starting HDFS" r.2).
Proof.
  intros H. unfold start_dfs. rewrite checked_ok by done.
  unfold info, warn, prop, ssh. mrun. cbv zeta.
  destruct (running_dfs c); [by mrun|]. mrun.
  destruct (finished_ok _); simpl; by mrun.
Qed.

Lemma start_map_reduce_run (c : t) (w : W) :
  initialized c = true →
  start_map_reduce c w =
    let w0 := logged INFO "Starting MapReduce" w in
    let r := ssh (sbin_dir (props c) +:+ "/start-mapred.sh") (master (props c)) w0 in
    (Ok tt,
     if running_map_reduce c then c
     else if finished_ok r.1 then set_running_map_reduce true c else c,
     if running_map_reduce c then logged WARN "Error while starting MapReduce" w0
     else if finished_ok r.1 then r.2
     else logged INFO "MapReduce started successfully" r.2).
Proof.
  intros H. unfold start_map_reduce. rewrite checked_ok by done.
  unfold info, warn, prop, ssh. mrun. cbv zeta.
  destruct (running_map_reduce c); [by mrun|]. mrun.
  destruct (finished_ok _); simpl; by mrun.
Qed.

Lemma start_run (c : t) (w : W) :
  initialized c = true →
  ∃ c' w', start c w = (Ok tt, c', w')
    ∧ props c' = props c ∧ initialized c' = true
    ∧ temp_conf_dir c' = temp_conf_dir c
    ∧ running c' = true
    ∧ (running_dfs c' = false → running_dfs c = false)
    ∧ (running_map_reduce c' = false → running_map_reduce c = false).
Proof.
  intros H. unfold start. rewrite checked_ok by done.
  rewrite (bind_ok _ _ _ _ _ _ _ (start_dfs_run _ _ H)). cbv zeta.
  erewrite bind_ok; cycle 1.
  { apply start_map_reduce_run. by repeat case_match. }
  cbv zeta. unfold assign. eexists _, _. split; [reflexivity|].
  repeat case_match; simpl; repeat split; auto; congruence.
Qed.

(** A cluster just built by [__init__] has every flag false and no
    [temp_conf_dir]. *)
Lemma init_fresh hosts_ topo_list config_file (w0 : W) c u w1 :
  __init__ hosts_ topo_list config_file tt w0 = (Ok c, u, w1) →
  initialized c = false ∧ running c = false ∧ running_dfs c = false ∧
  running_map_reduce c = false ∧ temp_conf_dir c = None ∧
  hosts (props c) = hosts_ ∧ index0 hosts_ = Ok (master (props c)).
Proof.
  unfold __init__. intros H.
  apply bind_ok_inv in H as (m & [] & w2 & Hm & H).
  apply bind_ok_inv in H as ([] & [] & w3 & _ & H).
  apply bind_ok_inv in H as (hc & [] & w4 & _ & H).
  apply bind_ok_inv in H as ([] & [] & w5 & _ & H).
  unfold lift_outcome in Hm. injection Hm as Hm _.
  unfold ret in H. injection H as <- _. simpl. by rewrite Hm.
Qed.

(** What a method guarded by [_check_initialization] does on a cluster that
    is not initialized. *)
Definition raises_not_initialized {A} (m : M t W A) (c : t) (w : W) : Prop :=
  m c w = (Raise HadoopNotInitializedException, c,
           logged ERROR not_initialized_log w).

Lemma not_initialized_guard (c : t) (w : W) :
  initialized c = false →
  raises_not_initialized start c w ∧
  raises_not_initialized start_and_wait c w ∧
  raises_not_initialized start_dfs c w ∧
  raises_not_initialized start_dfs_and_wait c w ∧
  raises_not_initialized start_map_reduce c w ∧
  raises_not_initialized start_map_reduce_and_wait c w ∧
  raises_not_initialized stop c w ∧
  raises_not_initialized stop_dfs c w ∧
  raises_not_initialized stop_map_reduce c w ∧
  (∀ command node should_be_running verbose,
     raises_not_initialized
       (execute command node should_be_running verbose) c w) ∧
  (∀ job node verbose,
     raises_not_initialized (execute_job job node verbose) c w).
Proof.
  intros H. unfold raises_not_initialized.
  repeat split; intros; by apply checked_fail.
Qed.

(** C5: on a cluster just constructed every flag is false, and [start], as
    every other method that requires an initialized cluster ([stop],
    [execute], ...), raises [HadoopNotInitializedException] and leaves the
    object as it was, all flags false. *)
Theorem start_before_initialize_raises
    hosts_ topo_list config_file (w0 : W) (c : t) (w1 : W) :
  __init__ hosts_ topo_list config_file tt w0 = (Ok c, tt, w1) →
  (initialized c = false ∧ running c = false ∧ running_dfs c = false ∧
   running_map_reduce c = false) ∧
  ∀ w : W,
    raises_not_initialized start c w ∧
    raises_not_initialized start_and_wait c w ∧
    raises_not_initialized start_dfs c w ∧
    raises_not_initialized start_dfs_and_wait c w ∧
    raises_not_initialized start_map_reduce c w ∧
    raises_not_initialized start_map_reduce_and_wait c w ∧
    raises_not_initialized stop c w ∧
    raises_not_initialized stop_dfs c w ∧
    raises_not_initialized stop_map_reduce c w ∧
    (∀ command node should_be_running verbose,
       raises_not_initialized
         (execute command node should_be_running verbose) c w) ∧
    (∀ job node verbose,
       raises_not_initialized (execute_job job node verbose) c w).
Proof.
  intros Hc. apply init_fresh in Hc as (Hi & Hr & Hd & Hm & _).
  split; [done|]. intros w. by apply not_initialized_guard.
Qed.


(** *** Methods that do not touch [initialized] or [temp_conf_dir] *)

Section Frame.
Context (P : t → Prop).
Hypothesis P_running : ∀ b c, P c → P (set_running b c).
Hypothesis P_running_dfs : ∀ b c, P c → P (set_running_dfs b c).
Hypothesis P_running_map_reduce :
  ∀ b c, P c → P (set_running_map_reduce b c).

Ltac frame :=
  unfold info, warn, error, prop;
  repeat first
    [ keeps_step
    | apply keeps_assign; intros ?; first
        [ apply P_running | apply P_running_dfs
        | apply P_running_map_reduce ] ].








Lemma keeps_self_temp_conf_dir : keeps (W:=W) P self_temp_conf_dir.
Proof. unfold self_temp_conf_dir. frame. Qed.

Lemma keeps_clean_conf : keeps (W:=W) P clean_conf.
Proof. unfold clean_conf. frame. apply keeps_self_temp_conf_dir. Qed.










End Frame.


(** *** Cleaning *)






(** *** The sizing of [_configure_servers] on a single core *)

Lemma configure_servers_single_core hosts_ (c : t) (w : W) h0 :
  index0 (match hosts_ with
          | Some (h :: l) => h :: l
          | _ => hosts (props c)
          end) = Ok h0 →
  smt_size (perform (get_host_attributes h0) w).1 = 1 →
  _configure_servers hosts_ c w =
    (Raise ZeroDivisionError, c, (perform (get_host_attributes h0) w).2).
Proof.
  intros Hh Hc. unfold _configure_servers, prop. mrun. rewrite Hh. mrun.
  rewrite Hc. by destruct (decide (1 - 1 = 0)).
Qed.

(** *** [initialize] *)








End Hadoop.

(** ** The Hadoop cluster in the recording world *)

Section HadoopRecorded.
Import HadoopCluster.

Lemma trace_cons s e h :
  trace {| script := s; history := e :: h |} =
    (trace {| script := s; history := h |} ++ [e])%list.
Proof. unfold trace. simpl. by rewrite reverse_cons. Qed.

Lemma ssh_commands_app l1 l2 :
  ssh_commands (l1 ++ l2) = (ssh_commands l1 ++ ssh_commands l2)%list.
Proof. apply omap_app. Qed.

Lemma xml_writes_app l1 l2 :
  xml_writes (l1 ++ l2) = (xml_writes l1 ++ xml_writes l2)%list.
Proof. apply omap_app. Qed.

Ltac in_recorded :=
  cbv beta iota delta
    [script history fst snd perform Recorded_World ssh logged].

(** C1, as the code has it: on an initialized cluster [stop] returns with
    [running] false.  It logs and runs the stop command of MapReduce, then
    logs and runs the one of HDFS, and makes no other call but a warning
    after each command that did not finish well.  The flag of a subsystem
    becomes false when its command, as it was answered in this run, finished
    well, and is left as it was when the command failed. *)
Theorem stop_resets_flags (c : t) (w : Recorded) :
  initialized c = true →
  let stop_mapred :=
    (sbin_dir (props c) +:+ "/stop-mapred.sh", master (props c)) in
  let stop_dfs :=
    (sbin_dir (props c) +:+ "/stop-dfs.sh", master (props c)) in
  let mapred_calls :=
    [any_op (logger INFO "Stopping MapReduce");
     any_op (SshProcess_run stop_mapred.1 stop_mapred.2)] in
  let mapred_ok :=
    finished_ok (answered w [any_op (logger INFO "Stopping MapReduce")]
                   (SshProcess_run stop_mapred.1 stop_mapred.2)) in
  let mapred_warning :=
    if mapred_ok then []
    else [any_op (logger WARN "Error while stopping MapReduce")] in
  let dfs_calls :=
    [any_op (logger INFO "Stopping HDFS");
     any_op (SshProcess_run stop_dfs.1 stop_dfs.2)] in
  let dfs_ok :=
    finished_ok (answered w
                   (mapred_calls ++ mapred_warning ++
                    [any_op (logger INFO "Stopping HDFS")])
                   (SshProcess_run stop_dfs.1 stop_dfs.2)) in
  let dfs_warning :=
    if dfs_ok then [] else [any_op (logger WARN "Error while stopping HDFS")] in
  ∃ c' w', stop c w = (Ok tt, c', w')
    ∧ props c' = props c ∧ initialized c' = true
    ∧ temp_conf_dir c' = temp_conf_dir c
    ∧ running c' = false
    ∧ running_map_reduce c' =
        (if mapred_ok then false else running_map_reduce c)
    ∧ running_dfs c' = (if dfs_ok then false else running_dfs c)
    ∧ script w' = script w
    ∧ trace w' =
        (trace w ++ mapred_calls ++ mapred_warning ++ dfs_calls ++
         dfs_warning)%list
    ∧ (ssh_ok (script w) stop_mapred.1 stop_mapred.2 →
         running_map_reduce c' = false)
    ∧ (ssh_fails (script w) stop_mapred.1 stop_mapred.2 →
         running_map_reduce c' = running_map_reduce c)
    ∧ (ssh_ok (script w) stop_dfs.1 stop_dfs.2 → running_dfs c' = false)
    ∧ (ssh_fails (script w) stop_dfs.1 stop_dfs.2 →
         running_dfs c' = running_dfs c)
    ∧ ssh_commands (trace w') =
        (ssh_commands (trace w) ++ [stop_mapred; stop_dfs])%list.
Proof.
  intros H. simpl. rewrite (stop_run c w H). destruct w as [s h]. cbv zeta.
  eexists _, _. split; [reflexivity|]. in_recorded.
  unfold answered. cbn [script history reverse rev_append app].
  destruct (finished_ok (answer s (_ :: h) _)) eqn:E1;
    cbn [script history reverse rev_append app];
    destruct (finished_ok (answer s (_ :: _ :: _) _)) eqn:E2.
  all: split_and!; auto.
  all: try (intros Hs; unfold ssh_ok, ssh_fails in Hs; simpl in *; congruence).
  all: rewrite ?trace_cons, ?ssh_commands_app; simpl;
    rewrite ?app_nil_r, <- ?app_assoc; reflexivity.
Qed.

(** C8: [_configure_servers] sets the two slot counts to the number of
    cores minus one and, when it is positive, the memory of a child to the
    memory in MB minus 2048, divided by the slots (integer division); when
    that is zero or negative the memory is not written.  With 8 cores and
    16384 MB the values written are 7, 7 and 2048. *)
Theorem configure_servers_sizing
    (c : t) (w : Recorded) hosts_ h0 d cores ram :
  index0 (match hosts_ with
          | Some (h :: l) => h :: l
          | _ => hosts (props c)
          end) = Ok h0 →
  temp_conf_dir c = Some d →
  attributes_are (script w) h0 cores ram →
  xml_files_writable (script w) →
  cores ≠ 1 →
  let slots := cores - 1 in
  let mem_per_slot_mb := (ram `div` MB - 2048) `div` slots in
  let core_site := Py.join d CORE_CONF_FILE in
  let mapred_site := Py.join d MR_CONF_FILE in
  ∃ w', _configure_servers hosts_ c w = (Ok tt, c, w') ∧
    xml_writes (trace w') =
      (xml_writes (trace w) ++
       [(core_site, "fs.default.name",
         "hdfs://" +:+ address (master (props c)) +:+ ":" +:+
           Py.str (hdfs_port (props c)) +:+ "/", true);
        (core_site, "hadoop.tmp.dir", hadoop_temp_dir (props c), true);
        (core_site, "topology.script.file.name",
         conf_dir (props c) +:+ "/topo.sh", true);
        (mapred_site, "mapred.job.tracker",
         address (master (props c)) +:+ ":" +:+ Py.str (mapred_port (props c)),
         true);
        (mapred_site, "mapred.tasktracker.map.tasks.maximum",
         Py.str slots, true);
        (mapred_site, "mapred.tasktracker.reduce.tasks.maximum",
         Py.str slots, true)] ++
       (if decide (mem_per_slot_mb <= 0) then []
        else [(mapred_site, "mapred.child.java.opts",
               "-Xmx" +:+ Py.str mem_per_slot_mb +:+ "m", true)]))%list ∧
    (cores = 8 → ram = 16384 * MB →
       Py.str slots = "7" ∧
       "-Xmx" +:+ Py.str mem_per_slot_mb +:+ "m" = "-Xmx2048m").
Proof.
  intros Hh Hd Ha Hw Hc. destruct w as [s h]. simpl in Ha, Hw.
  unfold _configure_servers, replace_in_temp, self_temp_conf_dir, prop, warn.
  mrun. rewrite Hh. mrun. in_recorded.
  rewrite Ha. cbn [smt_size ram_size].
  destruct (decide (cores - 1 = 0)) as [|_]; [lia|].
  repeat (mrun; rewrite ?Hd; in_recorded;
    try match goal with
    | |- context [answer s ?hist (replace_in_xml_file ?f ?n ?v ?b)] =>
        destruct (Hw hist f n v b) as [? ->]
    end).
  change (1024 * 1024) with MB. change (2 * 1024) with 2048.
  destruct (decide (_ <= 0)).
  - mrun. in_recorded.
    eexists. split; [reflexivity|]. split.
    + rewrite !trace_cons, !xml_writes_app. simpl.
      rewrite !app_nil_r, <- !app_assoc. reflexivity.
    + intros -> ->. by vm_compute.
  - repeat (mrun; rewrite ?Hd; in_recorded;
      try match goal with
      | |- context [answer s ?hist (replace_in_xml_file ?f ?n ?v ?b)] =>
          destruct (Hw hist f n v b) as [? ->]
      end).
    eexists. split; [reflexivity|]. split.
    + rewrite !trace_cons, !xml_writes_app. simpl.
      rewrite !app_nil_r, <- !app_assoc. reflexivity.
    + intros -> ->. by vm_compute.
Qed.

(** *** Scenarios *)

(** The stop commands fail: [stop] returns, [running] is false, and
    [running_dfs] and [running_map_reduce] are still true. *)
Lemma stop_leaves_flags_when_commands_fail :
  result_and_flags
    (session [node1] (failing_commands [stop_dfs_sh; stop_mapred_sh])
       (initialize ;;; start ;;; stop))
  = (Ok tt, Some (true, false, true, true)).
Proof. by vm_compute. Qed.


(** C4 fails: the start command of HDFS fails, [start] returns with
    [running] true and [running_dfs] false. *)
Theorem start_sets_running_when_dfs_failed :
  result_and_flags
    (session [node1] (failing_commands [start_dfs_sh]) (initialize ;;; start))
  = (Ok tt, Some (true, true, false, true)).
Proof. by vm_compute. Qed.

(** C6 fails: [jps] runs on the master for every host of the loop.  A
    DataNode left on the second host is not looked for and not killed:
    the only commands [initialize] runs are [jps] on the master, twice,
    and the format of HDFS. *)
Theorem force_clean_lists_master_only :
  let s := session [node1; node2] leftover_on_node2 initialize in
  result_and_flags s = (Ok tt, Some (true, false, false, false)) ∧
  ssh_commands (trace s.2)
  = [("jps", node1); ("jps", node1); (namenode_format, node1)].
Proof. split; by vm_compute. Qed.

(** C2 fails: with one core [_configure_servers] raises
    [ZeroDivisionError] before it writes any setting, and [initialize]
    with it. *)
Theorem configure_servers_single_core_raises :
  let after_copy :=
    session [node1] (hosts_with 1 (16384 * MB))
      (_copy_base_conf ;;; _configure_servers (Some [node1])) in
  let after_initialize :=
    session [node1] (hosts_with 1 (16384 * MB)) initialize in
  after_copy.1.1 = Raise ZeroDivisionError ∧
  xml_writes (trace after_copy.2) = [] ∧
  result_and_flags after_initialize
  = (Raise ZeroDivisionError, Some (false, false, false, false)).
Proof. split_and!; by vm_compute. Qed.


(** *** Instances *)

Lemma stop_resets_flags_on_node1 :
  ∃ c' w',
    stop (example_cluster true true true true None) (new_world silent)
    = (Ok tt, c', w') ∧
    hadoop_flags c' = (true, false, false, false) ∧
    trace w' =
      [any_op (logger INFO "Stopping MapReduce");
       any_op (SshProcess_run stop_mapred_sh node1);
       any_op (logger INFO "Stopping HDFS");
       any_op (SshProcess_run stop_dfs_sh node1)].
Proof.
  destruct (stop_resets_flags (example_cluster true true true true None)
              (new_world silent) eq_refl)
    as (c' & w' & H & _ & Hi & _ & Hr & Hm & Hd & _ & Ht & _).
  exists c', w'. split; [exact H|]. split; [|exact Ht].
  unfold hadoop_flags. rewrite Hi, Hr, Hm, Hd. reflexivity.
Defined.

Lemma start_before_initialize_raises_on_node1 :
  raises_not_initialized start
    (example_cluster false false false false None) (new_world silent).
Proof.
  refine (proj1 (proj2 (start_before_initialize_raises
    [node1] None None (new_world silent) _ _ _) (new_world silent))).
  vm_compute. reflexivity.
Defined.


Lemma configure_servers_sizing_8_cores_16384_MB :
  ∃ w',
    _configure_servers (Some [node1])
      (example_cluster false false false false (Some "/tmp/hadoop-tmp"))
      (new_world (hosts_with 8 (16384 * MB)))
    = (Ok tt, example_cluster false false false false (Some "/tmp/hadoop-tmp"),
       w') ∧
    xml_writes (trace w') =
      [("/tmp/hadoop-tmp/core-site.xml", "fs.default.name",
        "hdfs://node-1.site.grid5000.fr:54310/", true);
       ("/tmp/hadoop-tmp/core-site.xml", "hadoop.tmp.dir",
        "/tmp/hadoop/tmp", true);
       ("/tmp/hadoop-tmp/core-site.xml", "topology.script.file.name",
        "/tmp/hadoop/conf/topo.sh", true);
       ("/tmp/hadoop-tmp/mapred-site.xml", "mapred.job.tracker",
        "node-1.site.grid5000.fr:54311", true);
       ("/tmp/hadoop-tmp/mapred-site.xml",
        "mapred.tasktracker.map.tasks.maximum", "7", true);
       ("/tmp/hadoop-tmp/mapred-site.xml",
        "mapred.tasktracker.reduce.tasks.maximum", "7", true);
       ("/tmp/hadoop-tmp/mapred-site.xml", "mapred.child.java.opts",
        "-Xmx2048m", true)].
Proof.
  destruct (configure_servers_sizing
              (example_cluster false false false false (Some "/tmp/hadoop-tmp"))
              (new_world (hosts_with 8 (16384 * MB)))
              (Some [node1]) node1 "/tmp/hadoop-tmp" 8 (16384 * MB)
              eq_refl eq_refl (λ _, eq_refl)
              (λ _ _ _ _ create, ex_intro _ create eq_refl)
              ltac:(discriminate))
    as (w' & H & Ht & _).
  exists w'. split; [exact H|]. rewrite Ht. vm_compute. reflexivity.
Defined.

End HadoopRecorded.

(** ** The Cassandra cluster *)

Section Cassandra.
Import CassandraCluster.
Context {W : Type} `{!World W}.

Lemma cassandra_init_fresh hosts_ config_file (w0 : W) c u w1 :
  __init__ hosts_ config_file tt w0 = (Ok c, u, w1) →
  initialized c = false ∧ running c = false.
Proof.
  unfold __init__. intros H.
  apply bind_ok_inv in H as (sd & [] & w2 & _ & H).
  apply bind_ok_inv in H as ([] & [] & w3 & _ & H).
  unfold ret in H. by injection H as <- _.
Qed.

Lemma bootstrap_run tar_file (c : t) (w : W) :
  ∃ w', bootstrap tar_file c w = (Ok tt, c, w').
Proof. unfold bootstrap, info, prop. mrun. eauto. Qed.

Definition not_initialized_msg : string :=
  "Cassandra not inicalized yet! You must initialize it first".

Lemma cassandra_start_not_initialized (c : t) (w : W) :
  initialized c = false →
  start c w =
    (Ok tt, c, logged ERROR not_initialized_msg
                 (logged INFO "Starting Cassandra" w)).
Proof.
  intros H. unfold start, info, error. mrun. rewrite H. simpl. by mrun.
Qed.

(** C9: [bootstrap] returns with the object as it was, whatever its flags;
    on a cluster just constructed [initialized] is therefore still false
    after [bootstrap], and [start] then logs an error and returns: it runs
    no action and [running] stays false. *)
Theorem bootstrap_does_not_initialize
    hosts_ config_file tar_file (w0 : W) (c : t) (w1 : W) :
  __init__ hosts_ config_file tt w0 = (Ok c, tt, w1) →
  (∀ (c' : t) (w : W), ∃ w', bootstrap tar_file c' w = (Ok tt, c', w')) ∧
  ∃ w2, bootstrap tar_file c w1 = (Ok tt, c, w2) ∧
        initialized c = false ∧ running c = false ∧
        start c w2 =
          (Ok tt, c, logged ERROR not_initialized_msg
                       (logged INFO "Starting Cassandra" w2)).
Proof.
  intros Hc. apply cassandra_init_fresh in Hc as [Hi Hr].
  split; [intros c' w; apply bootstrap_run|].
  destruct (bootstrap_run tar_file c w1) as [w2 Hb].
  exists w2. split_and!; [done..|]. by apply cassandra_start_not_initialized.
Qed.

End Cassandra.

Lemma bootstrap_does_not_initialize_on_two_nodes :
  ∃ w2 : Recorded,
    CassandraCluster.bootstrap "/home/user/cassandra.tar.gz" example_cassandra
      (CassandraCluster.__init__ [node1; node2] None tt (new_world silent)).2
    = (Ok tt, example_cassandra, w2) ∧
    CassandraCluster.start example_cassandra w2
    = (Ok tt, example_cassandra,
       logged ERROR not_initialized_msg (logged INFO "Starting Cassandra" w2)).
Proof.
  destruct (bootstrap_does_not_initialize [node1; node2] None
              "/home/user/cassandra.tar.gz" (new_world silent)
              example_cassandra
              (CassandraCluster.__init__ [node1; node2] None tt
                 (new_world silent)).2 ltac:(by vm_compute))
    as (_ & w2 & Hb & _ & _ & Hs).
  exists w2. split; [exact Hb | exact Hs].
Defined.

(** ** The configuration files in [change_conf] and [get_conf] *)

Section Strings.
Import Conf.
#[local] Arguments String.append !_ _ / : simpl nomatch.


























End Strings.

Set Warnings "-clear-no-such-hyp".
Section Maps.
Import Conf.
Context {K : Type} `{Countable K}.







End Maps.

Section Listing.
Import Conf.





End Listing.

Section FileLemmas.
Import Conf.






Lemma replace_found k v b f :
  (replace k v b f).1 = bool_decide (is_Some (lookup k f)).
Proof.
  unfold replace. destruct (lookup k f) as [x|] eqn:E; [done|].
  by destruct b.
Qed.














End FileLemmas.

Section FilesWorld.
Import HadoopCluster.
Context {W : Type} `{!World W}.






















































End FilesWorld.

(** *** Instances *)



